(** * Fitness studio booking service: model of [fitnessApi.py]

    The module keeps two process-wide lists, [classes] and [bookings], and
    exposes three request handlers: [get_classes], [book_class] and
    [get_bookings].  The handlers are embedded as computations over an
    explicit store; an [HTTPException] raised by a handler leaves the store as
    it was at the point of the [raise]. *)

From Stdlib Require Import ZArith.
From stdpp Require Import base tactics option list strings pretty.

Local Open Scope string_scope.
Local Open Scope list_scope.
Local Open Scope Z_scope.

(** ** Calendar arithmetic

    A [datetime] is kept as a count of seconds on the proleptic Gregorian
    calendar; the calendar fields are recovered when the value is printed.
    Sub-second precision plays no part in any handler (the only format used
    stops at seconds) and is left out.  Python confines a [datetime] to the
    years 1 to 9999; the count here is unbounded, and the schedules the
    service ever holds are the three seeded ones, in 2025. *)

Module Calendar.

(** Days between 1970-01-01 and the civil date [y]-[m]-[d]. *)
Definition days_from_civil (y m d : Z) : Z :=
  let y' := if m <=? 2 then y - 1 else y in
  let era := y' / 400 in
  let yoe := y' - era * 400 in
  let mp := if m <=? 2 then m + 9 else m - 3 in
  let doy := (153 * mp + 2) / 5 + d - 1 in
  let doe := yoe * 365 + yoe / 4 - yoe / 100 + doy in
  era * 146097 + doe - 719468.

(** The civil date (year, month, day) of a day count. *)
Definition civil_from_days (n : Z) : Z * Z * Z :=
  let z := n + 719468 in
  let era := z / 146097 in
  let doe := z - era * 146097 in
  let yoe := (doe - doe / 1460 + doe / 36524 - doe / 146096) / 365 in
  let doy := doe - (365 * yoe + yoe / 4 - yoe / 100) in
  let mp := (5 * doy + 2) / 153 in
  let d := doy - (153 * mp + 2) / 5 + 1 in
  let m := if mp <? 10 then mp + 3 else mp - 9 in
  let y := yoe + era * 400 in
  (if m <=? 2 then y + 1 else y, m, d).

(** Seconds from 1970-01-01 00:00:00 to the given wall-clock reading. *)
Definition seconds_of (y m d hh mm ss : Z) : Z :=
  days_from_civil y m d * 86400 + hh * 3600 + mm * 60 + ss.

(** Decimal rendering, zero padded to [width] digits. *)
Fixpoint zero_pad (width : nat) (s : string) : string :=
  match width with
  | O => s
  | S w => if (String.length s <? S w)%nat then zero_pad w ("0" +:+ s) else s
  end.

Definition digits (width : nat) (n : Z) : string :=
  zero_pad width (pretty (Z.to_N n)).

End Calendar.

(** ** Time zones

    A [tzinfo] is what an aware [datetime] carries: a fixed offset from UTC
    (seconds east) and an abbreviation.  A [zone] is what [pytz.timezone]
    returns; given a UTC reading it yields the [tzinfo] in force at that
    instant (pytz's [fromutc]). *)

Record tzinfo := { utcoffset : Z; tzname : string }.

Definition zone := Z → tzinfo.

Record datetime := { wall : Z; dt_tzinfo : tzinfo }.

(** POSIX timestamp of an aware datetime: the absolute instant. *)
Definition timestamp (dt : datetime) : Z := wall dt - utcoffset (dt_tzinfo dt).

(** [tz.localize(datetime(y, m, d, hh, mm))] for the offset in force. *)
Definition localize (ti : tzinfo) (y m d hh mm : Z) : datetime :=
  {| wall := Calendar.seconds_of y m d hh mm 0; dt_tzinfo := ti |}.

(** [dt.astimezone(tz)]: shift to UTC, then let the zone place it. *)
Definition astimezone (dt : datetime) (tz : zone) : datetime :=
  let utc := wall dt - utcoffset (dt_tzinfo dt) in
  let ti := tz utc in
  {| wall := utc + utcoffset ti; dt_tzinfo := ti |}.

(** [pytz.utc] and [datetime.now(pytz.utc)] for a clock reading [now]. *)
Definition utc_info : tzinfo := {| utcoffset := 0; tzname := "UTC" |}.
Definition utc : zone := λ _, utc_info.
Definition datetime_now_utc (now : Z) : datetime :=
  {| wall := now; dt_tzinfo := utc_info |}.

(** The [%z] directive: sign, hours and minutes of the offset, and the
    seconds when they are not zero. *)
Definition format_offset (off : Z) : string :=
  let a := Z.abs off in
  (if off <? 0 then "-" else "+")
    +:+ Calendar.digits 2 (a / 3600)
    +:+ Calendar.digits 2 (a / 60 mod 60)
    +:+ (if a mod 60 =? 0 then "" else Calendar.digits 2 (a mod 60)).

(** The [%Y-%m-%d %H:%M:%S] part, from a wall-clock second count. *)
Definition format_wall (w : Z) : string :=
  let '(y, m, d) := Calendar.civil_from_days (w / 86400) in
  let sod := w mod 86400 in
  Calendar.digits 4 y +:+ "-" +:+ Calendar.digits 2 m +:+ "-" +:+ Calendar.digits 2 d
    +:+ " " +:+ Calendar.digits 2 (sod / 3600)
    +:+ ":" +:+ Calendar.digits 2 (sod / 60 mod 60)
    +:+ ":" +:+ Calendar.digits 2 (sod mod 60).

(** [dt.strftime("%Y-%m-%d %H:%M:%S %Z%z")]. *)
Definition strftime (dt : datetime) : string :=
  format_wall (wall dt) +:+ " " +:+ tzname (dt_tzinfo dt)
    +:+ format_offset (utcoffset (dt_tzinfo dt)).

(** ** Data models *)

Record FitnessClass := {
  id : Z;
  name : string;
  instructor : string;
  schedule : datetime;
  capacity : Z;
  available_slots : Z
}.

Record BookingRequest := {
  req_class_id : Z;
  req_client_name : string;
  req_client_email : string
}.

Record Booking := {
  booking_id : Z;
  class_id : Z;
  class_name : string;
  client_name : string;
  client_email : string;
  booking_time : datetime
}.

(** One entry of the list returned by [get_classes]. *)
Record ClassView := {
  view_id : Z;
  view_name : string;
  view_instructor : string;
  view_schedule : string;
  view_capacity : Z;
  view_available_slots : Z
}.

(** [fitness_class.available_slots -= 1]. *)
Definition decrement_slots (c : FitnessClass) : FitnessClass :=
  {| id := id c; name := name c; instructor := instructor c;
     schedule := schedule c; capacity := capacity c;
     available_slots := available_slots c - 1 |}.

(** ** The in-memory store and the handler monad *)

Record Store := {
  classes : list FitnessClass;
  bookings : list Booking;
  log : list string
}.

Record HTTPException := { status_code : Z; detail : string }.

Inductive outcome (A : Type) : Type :=
| Return (a : A)
| Raise (e : HTTPException).
Arguments Return {A} a.
Arguments Raise {A} e.

Definition Handler (A : Type) : Type := Store → outcome A * Store.

#[export] Instance handler_ret : MRet Handler := λ A a s, (Return a, s).

#[export] Instance handler_bind : MBind Handler := λ A B k m s,
  match m s with
  | (Return a, s') => k a s'
  | (Raise e, s') => (Raise e, s')
  end.

Definition raise {A} (e : HTTPException) : Handler A := λ s, (Raise e, s).

Definition read {A} (f : Store → A) : Handler A := λ s, (Return (f s), s).

Definition write (f : Store → Store) : Handler unit := λ s, (Return tt, f s).

Definition set_classes (f : list FitnessClass → list FitnessClass) (s : Store) : Store :=
  {| classes := f (classes s); bookings := bookings s; log := log s |}.

Definition set_bookings (f : list Booking → list Booking) (s : Store) : Store :=
  {| classes := classes s; bookings := f (bookings s); log := log s |}.

(** [logger.info(msg)]. *)
Definition logger_info (msg : string) : Handler unit :=
  write (λ s, {| classes := classes s; bookings := bookings s; log := log s ++ [msg] |}).

(** [str(x)] for an optional string inside an f-string. *)
Definition fmt_optional (o : option string) : string :=
  match o with Some x => x | None => "None" end.

(** The error taxonomy, as the handlers raise it. *)
Definition InvalidTimezone : HTTPException :=
  {| status_code := 400; detail := "Invalid timezone" |}.
Definition ClassNotFound : HTTPException :=
  {| status_code := 404; detail := "Class not found" |}.
Definition NoSlotsAvailable : HTTPException :=
  {| status_code := 400; detail := "No slots available" |}.
Definition DuplicateBooking : HTTPException :=
  {| status_code := 400; detail := "Already booked for this class" |}.

(** ** The seeded catalog

    [IST] is the offset in force for Asia/Kolkata on the seeded dates. *)

Definition IST : tzinfo := {| utcoffset := 19800; tzname := "IST" |}.

Definition seeded_classes : list FitnessClass :=
  [ {| id := 1; name := "Yoga"; instructor := "Alice";
       schedule := localize IST 2025 8 22 8 0;
       capacity := 10; available_slots := 10 |};
    {| id := 2; name := "Zumba"; instructor := "Bob";
       schedule := localize IST 2025 8 22 10 0;
       capacity := 12; available_slots := 12 |};
    {| id := 3; name := "HIIT"; instructor := "Charlie";
       schedule := localize IST 2025 8 22 18 0;
       capacity := 15; available_slots := 15 |} ].

Definition initial_store : Store :=
  {| classes := seeded_classes; bookings := []; log := [] |}.

(** ** Handlers *)

(** [POST /book]. [now] is the clock reading taken by [datetime.now]. The
    class found by the generator is the object stored at position [i] of
    [classes]; the decrement goes to that very object. *)
Definition book_class (request : BookingRequest) (now : Z) : Handler Booking :=
  cs ← read classes;
  match list_find (λ c, id c = req_class_id request) cs with
  | None => raise ClassNotFound
  | Some (i, fitness_class) =>
      if bool_decide (available_slots fitness_class ≤ 0) then raise NoSlotsAvailable
      else
        bs ← read bookings;
        if existsb (λ b, bool_decide (client_email b = req_client_email request)
                           && bool_decide (class_id b = req_class_id request)) bs
        then raise DuplicateBooking
        else
          let new_booking :=
            {| booking_id := Z.of_nat (length bs) + 1;
               class_id := id fitness_class;
               class_name := name fitness_class;
               client_name := req_client_name request;
               client_email := req_client_email request;
               booking_time := datetime_now_utc now |} in
          write (set_bookings (λ l, l ++ [new_booking]));;
          write (set_classes (alter decrement_slots i));;
          logger_info ("Booking created: " +:+ client_email new_booking
                         +:+ " -> " +:+ name fitness_class);;
          mret new_booking
  end.

(** Python's [not email] for an optional string. *)
Definition is_falsy (email : option string) : bool :=
  match email with
  | None => true
  | Some e => bool_decide (e = "")
  end.

(** [GET /bookings]. *)
Definition get_bookings (email : option string) : Handler (list Booking) :=
  bs ← read bookings;
  let result :=
    if is_falsy email then bs
    else filter (λ b, Some (client_email b) = email) bs in
  logger_info ("Returned " +:+ pretty (length result)
                 +:+ " bookings for email=" +:+ fmt_optional email);;
  mret result.

(** The requests the service accepts, with the clock reading a booking takes. *)
Inductive Request :=
| GetClasses (timezone : option string)
| PostBook (request : BookingRequest) (now : Z)
| GetBookings (email : option string).

Section Catalog.

(** The system's time zone database: the zone for a recognised identifier,
    [None] where [pytz.timezone] raises. *)
Variable tzdb : string → option zone.

(** [pytz.timezone(timezone)]; it also rejects [None]. *)
Definition pytz_timezone (timezone : option string) : option zone :=
  timezone ≫= tzdb.

Definition class_view (target_tz : zone) (c : FitnessClass) : ClassView :=
  let converted_time := astimezone (schedule c) target_tz in
  {| view_id := id c;
     view_name := name c;
     view_instructor := instructor c;
     view_schedule := strftime converted_time;
     view_capacity := capacity c;
     view_available_slots := available_slots c |}.

(** [GET /classes]. *)
Definition get_classes (timezone : option string) : Handler (list ClassView) :=
  match pytz_timezone timezone with
  | None => raise InvalidTimezone
  | Some target_tz =>
      cs ← read classes;
      let response :=
        foldl (λ response c, response ++ [class_view target_tz c]) [] cs in
      logger_info ("Returned " +:+ pretty (length response)
                     +:+ " classes in timezone " +:+ fmt_optional timezone);;
      mret response
  end.

(** ** Reachable stores *)

(** The store a request leaves behind, whether it returns or raises. *)
Definition serve (r : Request) (s : Store) : Store :=
  match r with
  | GetClasses timezone => (get_classes timezone s).2
  | PostBook request now => (book_class request now s).2
  | GetBookings email => (get_bookings email s).2
  end.

Inductive reachable : Store → Prop :=
| reachable_init : reachable initial_store
| reachable_serve r s : reachable s → reachable (serve r s).

End Catalog.

(** A two-entry database used to run the handlers on concrete inputs; its
    Asia/Kolkata entry is the rule in force on the seeded dates. *)
Definition sample_tzdb (zone_name : string) : option zone :=
  if bool_decide (zone_name = "UTC") then Some utc
  else if bool_decide (zone_name = "Asia/Kolkata") then Some (λ _, IST)
  else None.

(** The duplicate test of [book_class], as a predicate on the ledger. *)
Definition already_booked (request : BookingRequest) (bs : list Booking) : bool :=
  existsb (λ b, bool_decide (client_email b = req_client_email request)
                  && bool_decide (class_id b = req_class_id request)) bs.

(** The class lookup of [book_class]. *)
Definition lookup_class (request : BookingRequest) (cs : list FitnessClass) :
    option (nat * FitnessClass) :=
  list_find (λ c, id c = req_class_id request) cs.

(** ** Concrete runs *)

Definition run (tzdb : string → option zone) (rs : list Request) (s : Store) : Store :=
  foldl (λ st r, serve tzdb r st) s rs.

Definition booking_request (cid : Z) (email : string) : BookingRequest :=
  {| req_class_id := cid; req_client_name := "Client"; req_client_email := email |}.

(** Ten clients, [c0@x.com] to [c9@x.com], book class 1 one second apart. *)
Definition ten_clients : list Request :=
  (λ n : nat, PostBook (booking_request 1 ("c" +:+ pretty n +:+ "@x.com"))
                       (1755800000 + Z.of_nat n)) <$> seq 0 10.

Definition yoga_sold_out : Store :=
  Eval vm_compute in run sample_tzdb ten_clients initial_store.

(** Three bookings whose addresses differ in case or in class. *)
Definition mixed_case_ledger : Store :=
  Eval vm_compute in
    run sample_tzdb
      [ PostBook (booking_request 1 "a@x.com") 1755800000;
        PostBook (booking_request 1 "A@x.com") 1755800001;
        PostBook (booking_request 2 "a@x.com") 1755800002 ]
      initial_store.

(** The fields of a class that no handler assigns. *)
Definition fixed_fields (c : FitnessClass) : Z * string * string * datetime * Z :=
  (id c, name c, instructor c, schedule c, capacity c).

(** ** Model validation

    [FitnessClass] declares [capacity] with [Field(..., gt=0)] and a
    validator on [available_slots].  Fields are validated in declaration
    order; the validator sees in [values] the fields that passed, so
    [capacity] is there only when it is positive. *)

Inductive FieldError :=
| CapacityNotPositive
| SlotsExceedCapacity.

(** [capacity: int = Field(..., gt=0)]. *)
Definition validate_capacity (v : Z) : option Z :=
  if bool_decide (v > 0) then Some v else None.

(** [check_slots(cls, v, values)]; [None] stands for the [ValueError]. The
    argument [values_capacity] is [values.get("capacity")]. *)
Definition check_slots (v : Z) (values_capacity : option Z) : option Z :=
  match values_capacity with
  | Some cap => if bool_decide (v > cap) then None else Some v
  | None => Some v
  end.

(** [FitnessClass(id=..., ..., available_slots=...)]: the model, or the
    errors of the fields that failed. *)
Definition new_FitnessClass (cid : Z) (cname cinstructor : string) (cschedule : datetime)
    (ccapacity cslots : Z) : list FieldError + FitnessClass :=
  let cap := validate_capacity ccapacity in
  let slots := check_slots cslots cap in
  match cap, slots with
  | Some c, Some v =>
      inr {| id := cid; name := cname; instructor := cinstructor;
             schedule := cschedule; capacity := c; available_slots := v |}
  | _, _ =>
      inl ((if cap is None then [CapacityNotPositive] else [])
             ++ (if slots is None then [SlotsExceedCapacity] else []))
  end.

(** ** Responses

    What a client of the three routes receives: the handler's value, or the
    exception it raised. *)

Inductive Response :=
| ClassList (views : list ClassView)
| Created (b : Booking)
| BookingList (bs : list Booking)
| Failed (e : HTTPException).

Definition respond {A} (wrap : A → Response) (o : outcome A) : Response :=
  match o with
  | Return a => wrap a
  | Raise e => Failed e
  end.

Definition response (tzdb : string → option zone) (r : Request) (s : Store) : Response :=
  match r with
  | GetClasses timezone => respond ClassList (get_classes tzdb timezone s).1
  | PostBook request now => respond Created (book_class request now s).1
  | GetBookings email => respond BookingList (get_bookings email s).1
  end.

Definition is_failed (r : Response) : bool :=
  match r with Failed _ => true | _ => false end.

(** Requests that only read. *)
Definition read_only (r : Request) : bool :=
  match r with PostBook _ _ => false | _ => true end.

(** ** Ledger measures *)

(** The bookings of the ledger made for class [cid]. *)
Definition bookings_of (cid : Z) (bs : list Booking) : list Booking :=
  filter (λ b, class_id b = cid) bs.

(** A series of booking calls, each with its clock reading. *)
Definition book_each (calls : list (BookingRequest * Z)) (s : Store) : Store :=
  foldl (λ st call, (book_class call.1 call.2 st).2) s calls.

(** The ten clients of [ten_clients], as calls of [book_class]. *)
Definition ten_calls : list (BookingRequest * Z) :=
  Eval vm_compute in
    (λ n : nat, (booking_request 1 ("c" +:+ pretty n +:+ "@x.com"),
                 1755800000 + Z.of_nat n)) <$> seq 0 10.

(** * Properties *)

(** ** What one call of [book_class] does *)

Lemma already_booked_false request bs :
  already_booked request bs = false ↔
  ∀ b, b ∈ bs →
    ¬ (client_email b = req_client_email request ∧ class_id b = req_class_id request).
Proof.
  unfold already_booked. induction bs as [|b0 bs IH]; simpl.
  - split; [|done]. intros _ b Hb. by apply elem_of_nil in Hb.
  - rewrite orb_false_iff, IH, andb_false_iff, !bool_decide_eq_false. split.
    + intros [Hb0 Hbs] b [->|Hb]%elem_of_cons; [tauto|by apply Hbs].
    + intros H. split.
      * destruct (decide (client_email b0 = req_client_email request)); [|tauto].
        right. intros ?. apply (H b0); [left|done].
      * intros b Hb. apply H. by right.
Qed.

Lemma book_class_Raise request now s e s' :
  book_class request now s = (Raise e, s') →
  s' = s ∧
  ( (lookup_class request (classes s) = None ∧ e = ClassNotFound)
  ∨ (∃ i c, lookup_class request (classes s) = Some (i, c)
        ∧ available_slots c ≤ 0 ∧ e = NoSlotsAvailable)
  ∨ (∃ i c, lookup_class request (classes s) = Some (i, c)
        ∧ 0 < available_slots c
        ∧ already_booked request (bookings s) = true ∧ e = DuplicateBooking)).
Proof.
  unfold book_class, lookup_class, already_booked, mbind, handler_bind, read, raise.
  destruct (list_find _ (classes s)) as [[i c]|] eqn:Hfind.
  - case_bool_decide as Hslots.
    + intros [= <- <-]. split; [done|]. right; left. by exists i, c.
    + destruct (existsb _ (bookings s)) eqn:Hdup.
      * intros [= <- <-]. split; [done|]. right; right. exists i, c.
        split_and!; [done|lia|done|done].
      * intros [=].
  - intros [= <- <-]. split; [done|]. by left.
Qed.

Lemma book_class_Return request now s b s' :
  book_class request now s = (Return b, s') →
  ∃ i c, lookup_class request (classes s) = Some (i, c)
    ∧ 0 < available_slots c
    ∧ already_booked request (bookings s) = false
    ∧ b = {| booking_id := Z.of_nat (length (bookings s)) + 1;
             class_id := id c;
             class_name := name c;
             client_name := req_client_name request;
             client_email := req_client_email request;
             booking_time := datetime_now_utc now |}
    ∧ classes s' = alter decrement_slots i (classes s)
    ∧ bookings s' = bookings s ++ [b]
    ∧ log s' = log s ++ ["Booking created: " +:+ req_client_email request
                           +:+ " -> " +:+ name c].
Proof.
  unfold book_class, lookup_class, already_booked, mbind, handler_bind, read, raise.
  destruct (list_find _ (classes s)) as [[i c]|] eqn:Hfind; [|intros [=]].
  case_bool_decide as Hslots; [intros [=]|].
  destruct (existsb _ (bookings s)) eqn:Hdup; [intros [=]|].
  intros [= <- <-]. exists i, c. split_and!; try done. lia.
Qed.

(** [get_bookings] always returns, and touches the log only. *)
Lemma get_bookings_run email s :
  ∃ result s', get_bookings email s = (Return result, s')
    ∧ classes s' = classes s ∧ bookings s' = bookings s
    ∧ result = (if is_falsy email then bookings s
                else filter (λ b, Some (client_email b) = email) (bookings s)).
Proof.
  unfold get_bookings, mbind, handler_bind, read, logger_info, write, mret, handler_ret.
  eexists _, _. split_and!; reflexivity.
Qed.

Lemma foldl_snoc_fmap {A B} (f : A → B) (l : list A) (acc : list B) :
  foldl (λ response c, response ++ [f c]) acc l = acc ++ (f <$> l).
Proof.
  revert acc. induction l as [|x l IH]; intros acc; simpl.
  - by rewrite app_nil_r.
  - by rewrite IH, <-app_assoc.
Qed.

Lemma get_classes_run tzdb timezone s :
  match pytz_timezone tzdb timezone with
  | None => get_classes tzdb timezone s = (Raise InvalidTimezone, s)
  | Some tz =>
      ∃ s', get_classes tzdb timezone s = (Return (class_view tz <$> classes s), s')
        ∧ classes s' = classes s ∧ bookings s' = bookings s
  end.
Proof.
  unfold get_classes. destruct (pytz_timezone tzdb timezone) as [tz|]; [|done].
  unfold mbind, handler_bind, read; simpl.
  rewrite foldl_snoc_fmap. by eexists.
Qed.

Lemma reachable_run tzdb rs s :
  reachable tzdb s → reachable tzdb (run tzdb rs s).
Proof.
  revert s. induction rs as [|r rs IH]; intros s Hs; simpl; [done|].
  apply IH. by constructor.
Qed.

(** ** Order of the checks *)

(** C2: [book_class] tests existence, then capacity, then duplication, and
    the first test that fails decides the error: a missing class gives
    [ClassNotFound] whatever the ledger holds, and a class without free slots
    gives [NoSlotsAvailable] even when the client already holds a booking
    for it; [DuplicateBooking] is reported only for an existing class that
    has a free slot. *)
Theorem book_class_check_order request now s :
  (lookup_class request (classes s) = None →
     book_class request now s = (Raise ClassNotFound, s))
  ∧ (∀ i c, lookup_class request (classes s) = Some (i, c) →
       available_slots c ≤ 0 →
       book_class request now s = (Raise NoSlotsAvailable, s))
  ∧ (∀ i c, lookup_class request (classes s) = Some (i, c) →
       0 < available_slots c →
       already_booked request (bookings s) = true →
       book_class request now s = (Raise DuplicateBooking, s)).
Proof.
  unfold lookup_class, already_booked, book_class, mbind, handler_bind, read, raise.
  split_and!.
  - by intros ->.
  - intros i c -> Hslots. by rewrite bool_decide_eq_true_2.
  - intros i c -> Hslots Hdup.
    rewrite bool_decide_eq_false_2 by lia. by rewrite Hdup.
Qed.

(** On the sold-out class 1, a client who already holds a booking is told
    that no slots are left, not that the booking is a duplicate. *)
Lemma book_class_check_order_witness :
  already_booked (booking_request 1 "c0@x.com") (bookings yoga_sold_out) = true
  ∧ book_class (booking_request 1 "c0@x.com") 1755800100 yoga_sold_out
    = (Raise NoSlotsAvailable, yoga_sold_out).
Proof.
  split; [reflexivity|].
  eapply (proj1 (proj2 (book_class_check_order
            (booking_request 1 "c0@x.com") 1755800100 yoga_sold_out)));
    [reflexivity | vm_compute; discriminate].
Defined.

(** ** Effect of a booking *)

Lemma timestamp_astimezone dt tz :
  timestamp (astimezone dt tz) = timestamp dt
  ∧ dt_tzinfo (astimezone dt tz) = tz (timestamp dt).
Proof. unfold timestamp, astimezone; simpl. split; [lia|done]. Qed.

(** C3: a call of [book_class] that returns has taken one slot from the
    class it looked up and from no other position of the catalog, has
    appended the returned booking (and nothing else) to the ledger, and that
    booking carries the looked-up class's name and a UTC [booking_time] at
    the clock reading of the call. *)
Theorem book_class_success request now s b s' :
  book_class request now s = (Return b, s') →
  ∃ i c c',
    lookup_class request (classes s) = Some (i, c)
    ∧ classes s !! i = Some c
    ∧ classes s' !! i = Some c'
    ∧ available_slots c' = available_slots c - 1
    ∧ (∀ j, j ≠ i → classes s' !! j = classes s !! j)
    ∧ length (classes s') = length (classes s)
    ∧ bookings s' = bookings s ++ [b]
    ∧ class_name b = name c
    ∧ dt_tzinfo (booking_time b) = utc_info
    ∧ utcoffset (dt_tzinfo (booking_time b)) = 0
    ∧ timestamp (booking_time b) = now.
Proof.
  intros (i & c & Hfind & _ & _ & -> & Hcs & Hbs & _)%book_class_Return.
  pose proof Hfind as (Hi & _ & _)%list_find_Some.
  exists i, c, (decrement_slots c). rewrite Hcs. split_and!; try done.
  - by rewrite list_lookup_alter_eq, Hi.
  - intros j Hj. by apply list_lookup_alter_ne.
  - apply length_alter.
  - simpl. unfold datetime_now_utc, timestamp. simpl. lia.
Qed.

Lemma book_class_success_witness :
  ∃ b s', book_class (booking_request 2 "a@x.com") 1755800000 initial_store = (Return b, s')
    ∧ bookings s' = [b]
    ∧ class_name b = "Zumba"
    ∧ timestamp (booking_time b) = 1755800000.
Proof.
  eexists _, _. split; [vm_compute; reflexivity|].
  edestruct (book_class_success (booking_request 2 "a@x.com") 1755800000 initial_store)
    as (i & c & c' & Hfind & _ & _ & _ & _ & _ & Hbs & Hname & _ & _ & Hnow);
    [vm_compute; reflexivity|].
  vm_compute in Hfind. injection Hfind as <- <-.
  split; [exact Hbs|]. split; [exact Hname | exact Hnow].
Defined.

(** ** Failed bookings *)

(** C6: a call of [book_class] that raises leaves the whole store as it
    found it (catalog, ledger and log), and the exception is one of
    [ClassNotFound], [NoSlotsAvailable] and [DuplicateBooking]. *)
Theorem book_class_failure_no_effect request now s e s' :
  book_class request now s = (Raise e, s') →
  s' = s
  ∧ (e = ClassNotFound ∨ e = NoSlotsAvailable ∨ e = DuplicateBooking).
Proof.
  intros [-> Hcases]%book_class_Raise. split; [done|].
  destruct Hcases as [[_ ->]|[(i & c & _ & _ & ->)|(i & c & _ & _ & _ & ->)]]; auto.
Qed.

(** The eleventh client of the sold-out class 1 is turned away and the
    store stays as it was. *)
Lemma book_class_failure_no_effect_witness :
  book_class (booking_request 1 "new@x.com") 1755800100 yoga_sold_out
    = (Raise NoSlotsAvailable, yoga_sold_out)
  ∧ (yoga_sold_out = yoga_sold_out
     ∧ (NoSlotsAvailable = ClassNotFound ∨ NoSlotsAvailable = NoSlotsAvailable
        ∨ NoSlotsAvailable = DuplicateBooking)).
Proof.
  split; [vm_compute; reflexivity|].
  apply (book_class_failure_no_effect (booking_request 1 "new@x.com") 1755800100
           yoga_sold_out NoSlotsAvailable yoga_sold_out).
  vm_compute; reflexivity.
Defined.

(** ** Frame of a booking *)

(** C10: whatever its outcome, a call of [book_class] keeps every catalog
    position, and the class there keeps its id, name, instructor, schedule
    and capacity; a class whose id is not the requested one is unchanged
    altogether. *)
Theorem book_class_frame request now s j c :
  classes s !! j = Some c →
  ∃ c', classes (book_class request now s).2 !! j = Some c'
    ∧ id c' = id c ∧ name c' = name c ∧ instructor c' = instructor c
    ∧ schedule c' = schedule c ∧ capacity c' = capacity c
    ∧ (id c ≠ req_class_id request → c' = c).
Proof.
  intros Hj. destruct (book_class request now s) as [[b|e] s'] eqn:Hrun; simpl.
  - apply book_class_Return in Hrun as (i & ci & Hfind & _ & _ & _ & Hcs & _).
    apply list_find_Some in Hfind as (Hi & Hid & _). rewrite Hcs.
    destruct (decide (i = j)) as [->|Hne].
    + assert (ci = c) as -> by congruence.
      exists (decrement_slots c). rewrite list_lookup_alter_eq, Hj.
      by split_and!.
    + exists c. by rewrite list_lookup_alter_ne.
  - apply book_class_Raise in Hrun as [-> _]. by exists c.
Qed.

Lemma book_class_frame_witness :
  ∃ c', classes (book_class (booking_request 1 "a@x.com") 1755800000 initial_store).2 !! 2%nat
          = Some c'
    ∧ name c' = "HIIT" ∧ capacity c' = 15 ∧ available_slots c' = 15.
Proof.
  destruct (book_class_frame (booking_request 1 "a@x.com") 1755800000 initial_store
              2%nat _ eq_refl) as (c' & Hc' & _ & Hname & _ & _ & Hcap & Hsame).
  exists c'. split; [exact Hc'|]. split; [exact Hname|]. split; [exact Hcap|].
  rewrite Hsame; [reflexivity | vm_compute; discriminate].
Defined.

(** ** Invariants of the reachable stores *)

Section Invariants.

Variable tzdb : string → option zone.

(** A property of the catalog and the ledger holds in every reachable
    store once it holds for the seeded one and survives every booking that
    goes through: no other request touches either list. *)
Lemma reachable_invariant (P : list FitnessClass → list Booking → Prop) :
  P seeded_classes [] →
  (∀ s request now b s',
      P (classes s) (bookings s) →
      book_class request now s = (Return b, s') →
      P (classes s') (bookings s')) →
  ∀ s, reachable tzdb s → P (classes s) (bookings s).
Proof.
  intros Hinit Hbook s Hs. induction Hs as [|r s Hs IH]; [done|].
  destruct r as [timezone|request now|email]; cbn [serve].
  - pose proof (get_classes_run tzdb timezone s) as Hrun.
    destruct (pytz_timezone tzdb timezone).
    + destruct Hrun as (s' & -> & Hcs & Hbs). simpl. by rewrite Hcs, Hbs.
    + by rewrite Hrun.
  - destruct (book_class request now s) as [[b|e] s'] eqn:Hrun; simpl.
    + by eapply Hbook.
    + by apply book_class_Raise in Hrun as [-> _].
  - destruct (get_bookings_run email s) as (result & s' & -> & Hcs & Hbs & _).
    simpl. by rewrite Hcs, Hbs.
Qed.

Lemma ledger_positions s :
  reachable tzdb s →
  ∀ (i : nat) b, bookings s !! i = Some b → booking_id b = Z.of_nat i + 1.
Proof.
  revert s.
  apply (reachable_invariant
           (λ _ bs, ∀ (i : nat) b, bs !! i = Some b → booking_id b = Z.of_nat i + 1)).
  - intros i b Hb. by rewrite lookup_nil in Hb.
  - intros s request now b s' IH (k & c & _ & _ & _ & Hb & _ & Hbs & _)%book_class_Return.
    rewrite Hbs. intros i b' [[_ Hi]|[-> <-]]%lookup_snoc_Some; [by apply IH|].
    by rewrite Hb.
Qed.

(** The catalog of a reachable store is the seeded one up to the slot
    counts; in particular every schedule is one of the three seeded instants. *)
Lemma reachable_catalog_fixed s :
  reachable tzdb s →
  fixed_fields <$> classes s = fixed_fields <$> seeded_classes.
Proof.
  revert s.
  apply (reachable_invariant
           (λ cs _, fixed_fields <$> cs = fixed_fields <$> seeded_classes)); [done|].
  intros s request now b s' IH (i & c & _ & _ & _ & _ & -> & _)%book_class_Return.
  rewrite (list_fmap_alter fixed_fields decrement_slots (λ x, x)).
  - by rewrite list_alter_id.
  - by apply Forall_true.
Qed.

End Invariants.

(** C1: in every store reachable from the seeded one by the three
    handlers, every class has [0 ≤ available_slots ≤ capacity]. *)
Theorem slots_within_capacity tzdb s :
  reachable tzdb s →
  ∀ c, c ∈ classes s → 0 ≤ available_slots c ≤ capacity c.
Proof.
  intros Hs. apply Forall_forall. revert s Hs.
  apply (reachable_invariant tzdb
           (λ cs _, Forall (λ c, 0 ≤ available_slots c ≤ capacity c) cs)).
  - unfold seeded_classes. repeat constructor; simpl; lia.
  - intros s request now b s' IH (i & c & Hfind & Hfree & _ & _ & -> & _)%book_class_Return.
    apply list_find_Some in Hfind as (Hi & _ & _).
    apply Forall_alter; [done|].
    intros c0 Hc0 Hbounds. assert (c0 = c) as -> by congruence.
    simpl. lia.
Qed.

Lemma reachable_yoga_sold_out : reachable sample_tzdb yoga_sold_out.
Proof.
  exact (reachable_run sample_tzdb ten_clients initial_store (reachable_init sample_tzdb)).
Defined.

Lemma slots_within_capacity_witness :
  reachable sample_tzdb yoga_sold_out
  ∧ ∀ c, c ∈ classes yoga_sold_out → 0 ≤ available_slots c ≤ capacity c.
Proof.
  split; [exact reachable_yoga_sold_out|].
  exact (slots_within_capacity sample_tzdb yoga_sold_out reachable_yoga_sold_out).
Defined.

(** C4: in every reachable store the booking ids grow strictly along the
    ledger, so no two bookings share one, and a booking that goes through
    gets the ledger's length plus one as its id. *)
Theorem booking_ids_sequential tzdb s :
  reachable tzdb s →
  (∀ (i j : nat) bi bj,
      bookings s !! i = Some bi → bookings s !! j = Some bj →
      (i < j)%nat → booking_id bi < booking_id bj)
  ∧ NoDup (booking_id <$> bookings s)
  ∧ (∀ request now b s',
        book_class request now s = (Return b, s') →
        booking_id b = Z.of_nat (length (bookings s)) + 1).
Proof.
  intros Hs. pose proof (ledger_positions tzdb s Hs) as Hpos. split_and!.
  - intros i j bi bj Hi Hj Hlt.
    rewrite (Hpos i bi Hi), (Hpos j bj Hj). lia.
  - apply NoDup_alt. intros i j x.
    rewrite !list_lookup_fmap.
    intros (bi & Hi & ->)%fmap_Some (bj & Hj & Hx)%fmap_Some.
    rewrite (Hpos i bi Hi), (Hpos j bj Hj) in Hx. lia.
  - intros request now b s' (i & c & _ & _ & _ & -> & _)%book_class_Return. done.
Qed.

Lemma booking_ids_sequential_witness :
  reachable sample_tzdb yoga_sold_out
  ∧ (booking_id <$> bookings yoga_sold_out) = [1; 2; 3; 4; 5; 6; 7; 8; 9; 10]
  ∧ NoDup (booking_id <$> bookings yoga_sold_out).
Proof.
  split; [exact reachable_yoga_sold_out|]. split; [reflexivity|].
  exact (proj1 (proj2 (booking_ids_sequential sample_tzdb yoga_sold_out
                         reachable_yoga_sold_out))).
Defined.

(** C5: in every reachable store, two ledger entries with the same
    [class_id] and the same [client_email] are one and the same entry. *)
Theorem one_booking_per_client_and_class tzdb s :
  reachable tzdb s →
  ∀ (i j : nat) bi bj,
    bookings s !! i = Some bi → bookings s !! j = Some bj →
    class_id bi = class_id bj → client_email bi = client_email bj →
    i = j.
Proof.
  revert s.
  apply (reachable_invariant tzdb
    (λ _ bs, ∀ (i j : nat) bi bj, bs !! i = Some bi → bs !! j = Some bj →
       class_id bi = class_id bj → client_email bi = client_email bj → i = j)).
  - intros i j bi bj Hi. by rewrite lookup_nil in Hi.
  - intros s request now b s' IH
      (k & c & Hfind & _ & Hfresh & Hb & _ & Hbs & _)%book_class_Return.
    apply list_find_Some in Hfind as (_ & Hid & _).
    rewrite already_booked_false in Hfresh.
    assert (Hnew : ∀ (i : nat) b0, bookings s !! i = Some b0 →
              class_id b0 = class_id b → client_email b0 = client_email b → False).
    { intros i b0 Hi Hc He. apply (Hfresh b0); [by eapply list_elem_of_lookup_2|].
      subst b; simpl in *. split; congruence. }
    rewrite Hbs. intros i j bi bj
      [[_ Hi]|[-> <-]]%lookup_snoc_Some [[_ Hj]|[-> <-]]%lookup_snoc_Some Hc He.
    + by eapply IH.
    + destruct (Hnew i bi Hi Hc He).
    + destruct (Hnew j bj Hj); done.
    + done.
Qed.

Lemma one_booking_per_client_and_class_witness :
  reachable sample_tzdb yoga_sold_out
  ∧ ∀ (i j : nat) bi bj,
      bookings yoga_sold_out !! i = Some bi → bookings yoga_sold_out !! j = Some bj →
      class_id bi = class_id bj → client_email bi = client_email bj → i = j.
Proof.
  split; [exact reachable_yoga_sold_out|].
  exact (one_booking_per_client_and_class sample_tzdb yoga_sold_out reachable_yoga_sold_out).
Defined.

(** ** Querying the ledger *)

(** C7: [get_bookings] always returns and leaves catalog and ledger alone.
    Without a filter the result is the ledger itself; with a filter (an
    [EmailStr], hence not the empty string) it is the ledger restricted to the
    bookings whose [client_email] is that very string, in ledger order. *)
Theorem get_bookings_spec email s :
  email ≠ Some "" →
  ∃ result s',
    get_bookings email s = (Return result, s')
    ∧ classes s' = classes s ∧ bookings s' = bookings s
    ∧ result = match email with
               | None => bookings s
               | Some e => filter (λ b, client_email b = e) (bookings s)
               end
    ∧ result `sublist_of` bookings s
    ∧ (∀ b, b ∈ result ↔
              b ∈ bookings s ∧ ∀ e, email = Some e → client_email b = e).
Proof.
  intros Hemail.
  destruct (get_bookings_run email s) as (result & s' & Hrun & Hcs & Hbs & Hres).
  exists result, s'. split_and!; try done.
  - destruct email as [e|]; [|done]. simpl in Hres.
    rewrite bool_decide_eq_false_2 in Hres by congruence.
    rewrite Hres. apply list_filter_iff. intros b. split; congruence.
  - rewrite Hres. destruct (is_falsy email); [done|]. apply sublist_filter.
  - intros b. rewrite Hres. destruct email as [e|]; simpl.
    + rewrite bool_decide_eq_false_2 by congruence.
      rewrite list_elem_of_filter. split.
      * intros [He Hb]. split; [done|]. intros e' [= <-]. congruence.
      * intros [Hb He]. split; [|done]. f_equal. by apply He.
    + split; [|tauto]. intros Hb. split; [done|]. intros e [=].
Qed.

Lemma get_bookings_spec_witness :
  Some "a@x.com" ≠ Some ""
  ∧ ∃ result s',
      get_bookings (Some "a@x.com") mixed_case_ledger = (Return result, s')
      ∧ bookings s' = bookings mixed_case_ledger
      ∧ booking_id <$> result = [1; 3].
Proof.
  split; [discriminate|].
  destruct (get_bookings_spec (Some "a@x.com") mixed_case_ledger)
    as (result & s' & Hrun & _ & Hbs & Hres & _); [discriminate|].
  exists result, s'. split; [exact Hrun|]. split; [exact Hbs|].
  rewrite Hres. reflexivity.
Defined.

(** The empty string is falsy in Python: the comprehension is skipped and
    the whole ledger comes back.  Request validation never lets it through. *)
Example get_bookings_empty_string :
  (get_bookings (Some "") mixed_case_ledger).1 = Return (bookings mixed_case_ledger).
Proof. reflexivity. Qed.

(** ** Listing the catalog *)

(** C8: with an identifier the time zone database does not know,
    [get_classes] raises [InvalidTimezone], a 400, and the store it leaves is
    the store it was given. *)
Theorem get_classes_invalid_timezone tzdb zone_name s :
  tzdb zone_name = None →
  get_classes tzdb (Some zone_name) s = (Raise InvalidTimezone, s)
  ∧ status_code InvalidTimezone = 400.
Proof.
  intros Hzone. split; [|done].
  pose proof (get_classes_run tzdb (Some zone_name) s) as Hrun.
  simpl in Hrun. by rewrite Hzone in Hrun.
Qed.

Lemma get_classes_invalid_timezone_witness :
  sample_tzdb "Mars/Phobos" = None
  ∧ (get_classes sample_tzdb (Some "Mars/Phobos") yoga_sold_out
       = (Raise InvalidTimezone, yoga_sold_out)
     ∧ status_code InvalidTimezone = 400).
Proof.
  split; [reflexivity|].
  apply (get_classes_invalid_timezone sample_tzdb "Mars/Phobos" yoga_sold_out).
  reflexivity.
Defined.



(** The same catalog listed for its home zone shows the stored wall clock. *)
Example get_classes_home_zone :
  view_schedule <$> match (get_classes sample_tzdb (Some "Asia/Kolkata") initial_store).1 with
                    | Return views => views
                    | Raise _ => []
                    end
  = [ "2025-08-22 08:00:00 IST+0530";
      "2025-08-22 10:00:00 IST+0530";
      "2025-08-22 18:00:00 IST+0530" ].
Proof. vm_compute. reflexivity. Qed.

(** * Further properties of the handlers *)

(** ** Lookups after a decrement *)

(** Decrementing the slots of one position does not move any lookup by id:
    the same position is found, with the class as it now stands. *)
Lemma lookup_class_alter request (i : nat) cs :
  lookup_class request (alter decrement_slots i cs)
  = (λ found : nat * FitnessClass,
       (found.1, if decide (found.1 = i) then decrement_slots found.2 else found.2))
      <$> lookup_class request cs.
Proof.
  unfold lookup_class. destruct (list_find _ cs) as [[j c]|] eqn:Hfind; simpl.
  - apply list_find_Some in Hfind as (Hj & Hid & Hbefore).
    apply list_find_Some. split_and!.
    + rewrite list_lookup_alter. case_decide as Hij.
      * subst. rewrite Hj. simpl. by rewrite decide_True.
      * by rewrite decide_False.
    + by case_decide.
    + intros k c' Hk Hlt.
      rewrite list_lookup_alter in Hk. case_decide; subst.
      * apply fmap_Some in Hk as (c0 & Hc0 & ->). simpl. by eapply Hbefore.
      * by eapply Hbefore.
  - apply list_find_None. apply list_find_None in Hfind.
    apply Forall_alter; [done|]. by intros c _ Hc.
Qed.

(** The three conditions under which [book_class] goes through, and what it
    then leaves behind. *)
Lemma book_class_go request now s (i : nat) c :
  lookup_class request (classes s) = Some (i, c) →
  0 < available_slots c →
  already_booked request (bookings s) = false →
  let b := {| booking_id := Z.of_nat (length (bookings s)) + 1;
              class_id := id c;
              class_name := name c;
              client_name := req_client_name request;
              client_email := req_client_email request;
              booking_time := datetime_now_utc now |} in
  book_class request now s
  = (Return b,
     {| classes := alter decrement_slots i (classes s);
        bookings := bookings s ++ [b];
        log := log s ++ ["Booking created: " +:+ req_client_email request
                           +:+ " -> " +:+ name c] |}).
Proof.
  unfold lookup_class, already_booked, book_class, mbind, handler_bind, read.
  intros -> Hfree Hdup. rewrite bool_decide_eq_false_2 by lia. by rewrite Hdup.
Qed.

Lemma bookings_of_snoc cid bs b :
  bookings_of cid (bs ++ [b])
  = bookings_of cid bs ++ (if decide (class_id b = cid) then [b] else []).
Proof.
  unfold bookings_of. by rewrite filter_app.
Qed.

(** ** Slot accounting *)

(** X1: in every reachable store each class's free slots and the bookings
    made for it add up to its capacity. *)
Theorem slot_accounting tzdb s :
  reachable tzdb s →
  ∀ c, c ∈ classes s →
    available_slots c + Z.of_nat (length (bookings_of (id c) (bookings s))) = capacity c.
Proof.
  intros Hs c (k & Hk)%list_elem_of_lookup. revert s Hs k c Hk.
  enough (∀ s, reachable tzdb s →
            NoDup (id <$> classes s)
            ∧ ∀ (k : nat) c, classes s !! k = Some c →
                available_slots c + Z.of_nat (length (bookings_of (id c) (bookings s)))
                = capacity c) as H
    by (intros s Hs; apply (H s Hs)).
  apply (reachable_invariant tzdb
    (λ cs bs, NoDup (id <$> cs)
              ∧ ∀ (k : nat) c, cs !! k = Some c →
                  available_slots c + Z.of_nat (length (bookings_of (id c) bs))
                  = capacity c)).
  - split.
    + by apply (bool_decide_unpack _).
    + intros [|[|[|k]]] c [= <-]; reflexivity.
  - intros s request now b s' [Hids IH]
      (i & ci & Hfind & _ & _ & Hb & -> & -> & _)%book_class_Return.
    pose proof Hfind as (Hi & _ & _)%list_find_Some.
    assert (Hids' : id <$> alter decrement_slots i (classes s) = id <$> classes s).
    { rewrite (list_fmap_alter id decrement_slots (λ x, x)); [|by apply Forall_true].
      by apply list_alter_id. }
    split; [by rewrite Hids'|].
    assert (Hcid : class_id b = id ci) by (by subst b).
    intros k c Hk. rewrite bookings_of_snoc, length_app, Hcid.
    rewrite list_lookup_alter in Hk. case_decide as Hik.
    + subst k. rewrite Hi in Hk. injection Hk as <-. simpl.
      rewrite decide_True by done. simpl.
      specialize (IH i ci Hi). lia.
    + rewrite decide_False.
      * simpl. specialize (IH k c Hk). lia.
      * intros Hsame. apply Hik.
        eapply (NoDup_lookup (id <$> classes s)); [done| |].
        -- by rewrite list_lookup_fmap, Hi.
        -- by rewrite list_lookup_fmap, Hk, Hsame.
Qed.

Lemma slot_accounting_witness :
  reachable sample_tzdb mixed_case_ledger
  ∧ ∀ c, c ∈ classes mixed_case_ledger →
      available_slots c + Z.of_nat (length (bookings_of (id c) (bookings mixed_case_ledger)))
      = capacity c.
Proof.
  assert (reachable sample_tzdb mixed_case_ledger) as Hreach.
  { exact (reachable_run sample_tzdb
             [ PostBook (booking_request 1 "a@x.com") 1755800000;
               PostBook (booking_request 1 "A@x.com") 1755800001;
               PostBook (booking_request 2 "a@x.com") 1755800002 ]
             initial_store (reachable_init sample_tzdb)). }
  split; [exact Hreach|].
  exact (slot_accounting sample_tzdb mixed_case_ledger Hreach).
Defined.

(** X2: in every reachable store each booking points at a class of the
    catalog, and the name it carries is that class's name. *)
Theorem bookings_reference_classes tzdb s :
  reachable tzdb s →
  ∀ b, b ∈ bookings s →
    ∃ c, c ∈ classes s ∧ id c = class_id b ∧ name c = class_name b.
Proof.
  revert s.
  apply (reachable_invariant tzdb
    (λ cs bs, ∀ b, b ∈ bs → ∃ c, c ∈ cs ∧ id c = class_id b ∧ name c = class_name b)).
  - intros b Hb. by apply elem_of_nil in Hb.
  - intros s request now b s' IH
      (i & ci & Hfind & _ & _ & Hb & -> & -> & _)%book_class_Return.
    apply list_find_Some in Hfind as (Hi & _ & _).
    assert (Hkeep : ∀ c, c ∈ classes s →
              ∃ c', c' ∈ alter decrement_slots i (classes s)
                    ∧ id c' = id c ∧ name c' = name c).
    { intros c (k & Hk)%list_elem_of_lookup.
      destruct (decide (i = k)) as [->|Hne].
      - exists (decrement_slots c). split; [|done].
        apply list_elem_of_lookup. exists k. by rewrite list_lookup_alter_eq, Hk.
      - exists c. split; [|done].
        apply list_elem_of_lookup. exists k. by rewrite list_lookup_alter_ne. }
    intros b' [Hold| ->%list_elem_of_singleton]%elem_of_app.
    + destruct (IH b' Hold) as (c & Hc & Hid & Hname).
      destruct (Hkeep c Hc) as (c' & Hc' & Hid' & Hname').
      exists c'. split_and!; congruence.
    + destruct (Hkeep ci) as (c' & Hc' & Hid' & Hname').
      { by eapply list_elem_of_lookup_2. }
      exists c'. subst b. by split_and!.
Qed.

Lemma bookings_reference_classes_witness :
  reachable sample_tzdb yoga_sold_out
  ∧ ∀ b, b ∈ bookings yoga_sold_out →
      ∃ c, c ∈ classes yoga_sold_out ∧ id c = class_id b ∧ name c = class_name b.
Proof.
  split; [exact reachable_yoga_sold_out|].
  exact (bookings_reference_classes sample_tzdb yoga_sold_out reachable_yoga_sold_out).
Defined.

(** ** One request at a time *)

(** A request raises and leaves the store as it was, or only appends a
    line to the log, or is a booking that went through. *)
Lemma serve_cases tzdb r s :
  (is_failed (response tzdb r s) = true ∧ serve tzdb r s = s)
  ∨ (is_failed (response tzdb r s) = false ∧ read_only r = true
     ∧ classes (serve tzdb r s) = classes s
     ∧ bookings (serve tzdb r s) = bookings s
     ∧ ∃ msg, log (serve tzdb r s) = log s ++ [msg])
  ∨ (is_failed (response tzdb r s) = false
     ∧ ∃ request now b, r = PostBook request now
         ∧ book_class request now s = (Return b, serve tzdb r s)).
Proof.
  destruct r as [timezone|request now|email]; cbn [serve response read_only].
  - pose proof (get_classes_run tzdb timezone s) as Hrun.
    unfold get_classes in *. destruct (pytz_timezone tzdb timezone) as [tz|].
    + right; left. destruct Hrun as (s' & Hrun & Hcs & Hbs).
      rewrite Hrun. simpl. split_and!; try done.
      injection Hrun as _ <-. by eexists.
    + left. by rewrite Hrun.
  - destruct (book_class request now s) as [[b|e] s'] eqn:Hrun; simpl.
    + right; right. split; [done|]. by exists request, now, b.
    + left. by apply book_class_Raise in Hrun as [-> _].
  - right; left. split_and!; try done. by eexists.
Qed.


(** X4: the ledger and the log only ever grow at the end, and the catalog
    keeps its length, over any series of requests from any store. *)
Theorem run_append_only tzdb rs s :
  bookings s `prefix_of` bookings (run tzdb rs s)
  ∧ log s `prefix_of` log (run tzdb rs s)
  ∧ length (classes (run tzdb rs s)) = length (classes s).
Proof.
  revert s. induction rs as [|r rs IH]; intros s; simpl; [done|].
  destruct (IH (serve tzdb r s)) as (Hbs & Hlog & Hlen).
  assert (bookings s `prefix_of` bookings (serve tzdb r s)
          ∧ log s `prefix_of` log (serve tzdb r s)
          ∧ length (classes (serve tzdb r s)) = length (classes s)) as (Hbs1 & Hlog1 & Hlen1).
  { destruct (serve_cases tzdb r s)
      as [[_ ->]|[(_ & _ & -> & -> & msg & ->)|(_ & request & now & b & _ & Hrun)]].
    - done.
    - split_and!; try done. by apply prefix_app_r.
    - apply book_class_Return in Hrun as (i & c & _ & _ & _ & _ & -> & -> & ->).
      split_and!; try by apply prefix_app_r. apply length_alter. }
  split_and!; [by etrans|by etrans|congruence].
Qed.

(** X5: over any series of requests from any store, the class at a catalog
    position keeps its id, name, instructor, schedule and capacity; its
    free slots never go up, never drop below zero once they are not
    negative, and never rise above the capacity once they are within it. *)
Theorem run_slots_monotone tzdb rs s (k : nat) c :
  classes s !! k = Some c →
  ∃ c', classes (run tzdb rs s) !! k = Some c'
    ∧ fixed_fields c' = fixed_fields c
    ∧ available_slots c' ≤ available_slots c
    ∧ (0 ≤ available_slots c → 0 ≤ available_slots c')
    ∧ (available_slots c ≤ capacity c → available_slots c' ≤ capacity c').
Proof.
  revert s c. induction rs as [|r rs IH]; intros s c Hk; simpl.
  { exists c. by split_and!. }
  assert (∃ c1, classes (serve tzdb r s) !! k = Some c1
            ∧ fixed_fields c1 = fixed_fields c
            ∧ available_slots c1 ≤ available_slots c
            ∧ (0 ≤ available_slots c → 0 ≤ available_slots c1))
    as (c1 & Hk1 & Hfix1 & Hle1 & Hnn1).
  { destruct (serve_cases tzdb r s)
      as [[_ ->]|[(_ & _ & -> & _)|(_ & request & now & b & _ & Hrun)]].
    - exists c. by split_and!.
    - exists c. by split_and!.
    - apply book_class_Return in Hrun as (i & ci & Hfind & Hfree & _ & _ & -> & _).
      apply list_find_Some in Hfind as (Hi & _ & _).
      rewrite list_lookup_alter. case_decide as Hik.
      + subst k. assert (ci = c) as -> by congruence.
        exists (decrement_slots c). rewrite Hk. simpl. split_and!; [done|done|lia|lia].
      + exists c. by split_and!. }
  destruct (IH _ _ Hk1) as (c' & Hk' & Hfix' & Hle' & Hnn' & _).
  exists c'. split_and!; [done|congruence|lia|tauto|].
  assert (capacity c' = capacity c) by (unfold fixed_fields in *; congruence).
  lia.
Qed.

Lemma run_slots_monotone_witness :
  classes initial_store !! 0%nat = Some {| id := 1; name := "Yoga"; instructor := "Alice";
                                          schedule := localize IST 2025 8 22 8 0;
                                          capacity := 10; available_slots := 10 |}
  ∧ ∃ c', classes (run sample_tzdb ten_clients initial_store) !! 0%nat = Some c'
      ∧ name c' = "Yoga" ∧ capacity c' = 10 ∧ 0 ≤ available_slots c' ≤ 10.
Proof.
  split; [reflexivity|].
  destruct (run_slots_monotone sample_tzdb ten_clients initial_store 0%nat _ eq_refl)
    as (c' & Hc' & Hfix & Hle & Hnn & Hcap).
  exists c'. split; [exact Hc'|].
  injection Hfix as _ Hname _ _ Hcapacity.
  split; [exact Hname|]. split; [exact Hcapacity|].
  split; [apply Hnn; simpl; lia | exact Hle].
Defined.

(** ** How requests compose *)

(** What a request answers and what it does to catalog and ledger do not
    depend on the log. *)
Lemma response_ignores_log tzdb r s1 s2 :
  classes s1 = classes s2 → bookings s1 = bookings s2 →
  response tzdb r s1 = response tzdb r s2
  ∧ classes (serve tzdb r s1) = classes (serve tzdb r s2)
  ∧ bookings (serve tzdb r s1) = bookings (serve tzdb r s2).
Proof.
  destruct s1 as [cs1 bs1 l1], s2 as [cs2 bs2 l2]; simpl. intros -> ->.
  destruct r as [timezone|request now|email]; cbn [serve response].
  - unfold get_classes. by destruct (pytz_timezone tzdb timezone).
  - unfold book_class, mbind, handler_bind, read, raise; simpl.
    destruct (list_find _ cs2) as [[i c]|]; [|done].
    case_bool_decide; [done|]. cbn [bookings classes]. by destruct (existsb _ bs2).
  - done.
Qed.

(** X6: listing the classes or querying the bookings, whether it succeeds
    or not, changes nothing for the request that comes next: same answer,
    same catalog and same ledger afterwards. *)
Theorem read_only_requests_are_transparent tzdb r0 r s :
  read_only r0 = true →
  response tzdb r (serve tzdb r0 s) = response tzdb r s
  ∧ classes (serve tzdb r (serve tzdb r0 s)) = classes (serve tzdb r s)
  ∧ bookings (serve tzdb r (serve tzdb r0 s)) = bookings (serve tzdb r s).
Proof.
  intros Hro. apply response_ignores_log.
  - destruct (serve_cases tzdb r0 s)
      as [[_ ->]|[(_ & _ & -> & _)|(_ & request & now & b & -> & _)]]; done.
  - destruct (serve_cases tzdb r0 s)
      as [[_ ->]|[(_ & _ & _ & -> & _)|(_ & request & now & b & -> & _)]]; done.
Qed.

Lemma read_only_requests_are_transparent_witness :
  read_only (GetClasses (Some "UTC")) = true
  ∧ (response sample_tzdb (PostBook (booking_request 1 "new@x.com") 1755800100)
       (serve sample_tzdb (GetClasses (Some "UTC")) yoga_sold_out)
     = response sample_tzdb (PostBook (booking_request 1 "new@x.com") 1755800100)
         yoga_sold_out
     ∧ classes (serve sample_tzdb (PostBook (booking_request 1 "new@x.com") 1755800100)
                  (serve sample_tzdb (GetClasses (Some "UTC")) yoga_sold_out))
       = classes (serve sample_tzdb (PostBook (booking_request 1 "new@x.com") 1755800100)
                    yoga_sold_out)
     ∧ bookings (serve sample_tzdb (PostBook (booking_request 1 "new@x.com") 1755800100)
                   (serve sample_tzdb (GetClasses (Some "UTC")) yoga_sold_out))
       = bookings (serve sample_tzdb (PostBook (booking_request 1 "new@x.com") 1755800100)
                     yoga_sold_out)).
Proof.
  split; [reflexivity|].
  apply (read_only_requests_are_transparent sample_tzdb (GetClasses (Some "UTC"))
           (PostBook (booking_request 1 "new@x.com") 1755800100) yoga_sold_out).
  reflexivity.
Defined.

Lemma already_booked_snoc request bs b :
  already_booked request (bs ++ [b])
  = already_booked request bs
    || (bool_decide (client_email b = req_client_email request)
          && bool_decide (class_id b = req_class_id request)).
Proof. unfold already_booked. rewrite existsb_app. simpl. by rewrite orb_false_r. Qed.

(** When [book_class] refuses a request for a class that exists. *)
Lemma book_class_refusals request now s (i : nat) c :
  lookup_class request (classes s) = Some (i, c) →
  (available_slots c ≤ 0 →
     book_class request now s = (Raise NoSlotsAvailable, s))
  ∧ (0 < available_slots c → already_booked request (bookings s) = true →
     book_class request now s = (Raise DuplicateBooking, s)).
Proof.
  unfold lookup_class, already_booked, book_class, mbind, handler_bind, read, raise.
  intros ->. split.
  - intros Hslots. by rewrite bool_decide_eq_true_2.
  - intros Hslots Hdup. rewrite bool_decide_eq_false_2 by lia. by rewrite Hdup.
Qed.



(** X8: after a booking went through, a query answers what it answered
    before, with the new booking added at the end when the query has no
    filter or filters on the booking's address. *)
Theorem get_bookings_after_booking request now s b s' email :
  book_class request now s = (Return b, s') →
  ∃ before,
    (get_bookings email s).1 = Return before
    ∧ (get_bookings email s').1
      = Return (if is_falsy email || bool_decide (email = Some (req_client_email request))
                then before ++ [b] else before).
Proof.
  intros (i & c & _ & _ & _ & Hb & _ & Hbs & _)%book_class_Return.
  destruct (get_bookings_run email s) as (before & s1 & Hrun & _ & _ & Hbefore).
  destruct (get_bookings_run email s') as (after & s2 & Hrun' & _ & _ & Hafter).
  exists before. rewrite Hrun, Hrun'. split; [done|]. simpl. f_equal.
  rewrite Hafter, Hbefore, Hbs. destruct (is_falsy email); [done|]. simpl.
  rewrite filter_app, filter_cons, filter_nil.
  assert (client_email b = req_client_email request) as -> by (by subst b).
  case_bool_decide as Hmatch.
  - by rewrite decide_True.
  - rewrite decide_False by done. by rewrite app_nil_r.
Qed.

Lemma get_bookings_after_booking_witness :
  ∃ b s',
    book_class (booking_request 3 "a@x.com") 1755800003 mixed_case_ledger = (Return b, s')
    ∧ ∃ before,
        (get_bookings (Some "a@x.com") mixed_case_ledger).1 = Return before
        ∧ booking_id <$> before = [1; 3]
        ∧ (get_bookings (Some "a@x.com") s').1 = Return (before ++ [b]).
Proof.
  eexists _, _. split; [vm_compute; reflexivity|].
  match goal with
  | |- ∃ before, _ ∧ _ ∧ (get_bookings _ ?s').1 = Return (_ ++ [?b]) =>
      destruct (get_bookings_after_booking (booking_request 3 "a@x.com") 1755800003
                  mixed_case_ledger b s' (Some "a@x.com"))
        as (before & Hbefore & Hafter); [vm_compute; reflexivity|]
  end.
  exists before. split; [exact Hbefore|]. split; [|exact Hafter].
  injection Hbefore as <-. reflexivity.
Defined.

(** ** Filling a class *)

Lemma book_each_cons call calls s :
  book_each (call :: calls) s = book_each calls (book_class call.1 call.2 s).2.
Proof. done. Qed.

(** X9: from any store, a series of bookings for one class by clients with
    distinct addresses, none of whom holds a booking for it yet, all go
    through as long as the class has a free slot for each: every call takes
    one slot and adds one ledger entry, in order.  Once the series has used
    up the slots, every further request for that class is refused with
    [NoSlotsAvailable]. *)
Theorem book_each_until_full calls s (i : nat) c :
  classes s !! i = Some c →
  (∀ call, call ∈ calls → lookup_class call.1 (classes s) = Some (i, c)) →
  NoDup ((λ call : BookingRequest * Z, req_client_email call.1) <$> calls) →
  (∀ call, call ∈ calls → already_booked call.1 (bookings s) = false) →
  Z.of_nat (length calls) ≤ available_slots c →
  ∃ c' added,
    classes (book_each calls s) !! i = Some c'
    ∧ available_slots c' = available_slots c - Z.of_nat (length calls)
    ∧ bookings (book_each calls s) = bookings s ++ added
    ∧ client_email <$> added = (λ call : BookingRequest * Z, req_client_email call.1) <$> calls
    ∧ (available_slots c = Z.of_nat (length calls) →
       ∀ request now,
         lookup_class request (classes s) = Some (i, c) →
         book_class request now (book_each calls s)
         = (Raise NoSlotsAvailable, book_each calls s)).
Proof.
  revert s c.
  induction calls as [|[request0 now0] calls IH]; intros s c Hi Hsame Hnodup Hfresh Hroom.
  - exists c, []. simpl. split_and!; try done.
    + lia.
    + by rewrite app_nil_r.
    + intros Hzero request now Hfind.
      apply (book_class_refusals request now s i c Hfind). simpl in Hzero. lia.
  - assert (Hsame0 : lookup_class request0 (classes s) = Some (i, c)).
    { apply (Hsame (request0, now0)). by left. }
    assert (Hfresh0 : already_booked request0 (bookings s) = false).
    { apply (Hfresh (request0, now0)). by left. }
    rewrite length_cons, Nat2Z.inj_succ in Hroom.
    pose proof (book_class_go request0 now0 s i c Hsame0 ltac:(lia) Hfresh0) as Hgo.
    simpl in Hgo. rewrite book_each_cons. cbn [fst snd]. rewrite Hgo. cbn [snd].
    apply NoDup_cons in Hnodup as [Hnew Hnodup]. simpl in Hnew.
    match goal with
    | |- context [book_each calls ?st] => set (s1 := st)
    end.
    destruct (IH s1 (decrement_slots c)) as (c' & added & Hc' & Hslots' & Hbs' & Hemails & Hfull).
    + subst s1; simpl. by rewrite list_lookup_alter_eq, Hi.
    + intros call Hcall. subst s1; simpl.
      rewrite lookup_class_alter, (Hsame call) by (by right). simpl.
      by rewrite decide_True.
    + done.
    + intros call Hcall. subst s1; simpl.
      rewrite already_booked_snoc, (Hfresh call) by (by right). simpl.
      rewrite bool_decide_eq_false_2; [done|].
      intros Heq. apply Hnew. rewrite Heq.
      apply list_elem_of_fmap. by exists call.
    + simpl. lia.
    + exists c'. eexists (_ :: added). split_and!.
      * done.
      * rewrite Hslots'. cbn [available_slots decrement_slots].
        rewrite length_cons, Nat2Z.inj_succ. lia.
      * rewrite Hbs'. subst s1; simpl. by rewrite <-app_assoc.
      * by rewrite !fmap_cons, Hemails.
      * intros Hzero request now Hfind. apply Hfull.
        -- cbn [available_slots decrement_slots].
           rewrite length_cons, Nat2Z.inj_succ in Hzero. lia.
        -- subst s1; simpl. rewrite lookup_class_alter, Hfind. simpl.
           by rewrite decide_True.
Qed.

Lemma book_each_until_full_witness :
  ∃ c',
    classes (book_each ten_calls initial_store) !! 0%nat = Some c'
    ∧ available_slots c' = 0
    ∧ length (bookings (book_each ten_calls initial_store)) = 10%nat
    ∧ book_class (booking_request 1 "late@x.com") 1755800100
        (book_each ten_calls initial_store)
      = (Raise NoSlotsAvailable, book_each ten_calls initial_store).
Proof.
  destruct (book_each_until_full ten_calls initial_store 0%nat
              {| id := 1; name := "Yoga"; instructor := "Alice";
                 schedule := localize IST 2025 8 22 8 0;
                 capacity := 10; available_slots := 10 |})
    as (c' & added & Hc' & Hslots & Hbs & Hemails & Hfull).
  - reflexivity.
  - apply Forall_forall. unfold ten_calls. repeat (constructor; [reflexivity|]). constructor.
  - apply (bool_decide_unpack _). vm_compute. reflexivity.
  - apply Forall_forall. unfold ten_calls. repeat (constructor; [reflexivity|]). constructor.
  - vm_compute. discriminate.
  - exists c'. split; [exact Hc'|]. split; [exact Hslots|]. split.
    + rewrite Hbs, length_app. apply (f_equal length) in Hemails.
      rewrite !length_fmap in Hemails. rewrite Hemails. reflexivity.
    + apply Hfull; reflexivity.
Defined.

(** ** Listing after a booking *)

(** X10: after a booking went through, the listing for any known zone
    differs from the listing before in one place only: the view of the
    booked class shows one slot less. *)
Theorem get_classes_after_booking tzdb zone_name tz request now s b s' :
  tzdb zone_name = Some tz →
  book_class request now s = (Return b, s') →
  ∃ (i : nat) c views views',
    lookup_class request (classes s) = Some (i, c)
    ∧ (get_classes tzdb (Some zone_name) s).1 = Return views
    ∧ (get_classes tzdb (Some zone_name) s').1 = Return views'
    ∧ length views' = length views
    ∧ ∀ (j : nat) v, views !! j = Some v →
        ∃ v', views' !! j = Some v'
          ∧ view_id v' = view_id v ∧ view_name v' = view_name v
          ∧ view_instructor v' = view_instructor v
          ∧ view_schedule v' = view_schedule v
          ∧ view_capacity v' = view_capacity v
          ∧ view_available_slots v'
            = view_available_slots v - (if decide (j = i) then 1 else 0).
Proof.
  intros Hzone (i & c & Hfind & _ & _ & _ & Hcs & _)%book_class_Return.
  pose proof (get_classes_run tzdb (Some zone_name) s) as Hrun.
  pose proof (get_classes_run tzdb (Some zone_name) s') as Hrun'.
  simpl in Hrun, Hrun'. rewrite Hzone in Hrun, Hrun'.
  destruct Hrun as (s1 & Hrun & _), Hrun' as (s2 & Hrun' & _).
  exists i, c, (class_view tz <$> classes s), (class_view tz <$> classes s').
  rewrite Hrun, Hrun'. split_and!; try done.
  - by rewrite !length_fmap, Hcs, length_alter.
  - intros j v. rewrite !list_lookup_fmap, Hcs, list_lookup_alter.
    intros (cj & Hj & ->)%fmap_Some. rewrite Hj.
    destruct (decide (i = j)) as [->|Hne].
    + exists (class_view tz (decrement_slots cj)). rewrite !decide_True by done.
      rewrite Hj. simpl. by split_and!.
    + exists (class_view tz cj). rewrite !decide_False by done.
      rewrite ?Hj. simpl. split_and!; try done. lia.
Qed.

Lemma get_classes_after_booking_witness :
  ∃ b s',
    book_class (booking_request 2 "a@x.com") 1755800000 initial_store = (Return b, s')
    ∧ ∃ views', (get_classes sample_tzdb (Some "UTC") s').1 = Return views'
        ∧ length views' = 3%nat.
Proof.
  eexists _, _. split; [vm_compute; reflexivity|].
  edestruct (get_classes_after_booking sample_tzdb "UTC" utc
               (booking_request 2 "a@x.com") 1755800000 initial_store)
    as (i & c & views & views' & _ & Hbefore & Hafter & Hlen & _);
    [reflexivity | vm_compute; reflexivity |].
  exists views'. split; [exact Hafter|].
  rewrite Hlen. vm_compute in Hbefore. injection Hbefore as <-. reflexivity.
Defined.

(** ** Validation of the class model *)

(** X11: [FitnessClass(...)] is accepted exactly when [capacity] is positive
    and [available_slots] does not exceed it, and then holds the values as
    given; a negative [available_slots] passes.  A capacity that is not
    positive is the only error reported for it: the slot validator does not
    see a rejected capacity and stays silent. *)
Theorem new_FitnessClass_accepts cid cname cinstructor cschedule ccapacity cslots :
  new_FitnessClass cid cname cinstructor cschedule ccapacity cslots
  = if bool_decide (ccapacity ≤ 0) then inl [CapacityNotPositive]
    else if bool_decide (ccapacity < cslots) then inl [SlotsExceedCapacity]
    else inr {| id := cid; name := cname; instructor := cinstructor;
                schedule := cschedule; capacity := ccapacity;
                available_slots := cslots |}.
Proof.
  unfold new_FitnessClass, validate_capacity, check_slots.
  repeat case_bool_decide; try done; lia.
Qed.

(** The seeded catalog is made of accepted models. *)
Example seeded_classes_accepted :
  Forall (λ c, new_FitnessClass (id c) (name c) (instructor c) (schedule c)
                 (capacity c) (available_slots c) = inr c) seeded_classes.
Proof. repeat constructor. Qed.
